(** * Chicken-Chores: the Stripe / Firestore subscription routes of
    [api-routes.js], as a shallow embedding.

    The Express handlers are modelled as computations in a small
    state-and-exception monad over a [World] that holds the Firestore
    collection [families] (document id -> document) and a trace of the
    observable effects (calls to the payment provider, committed store
    writes).  The payment provider (the [stripe] client) is an explicit
    record of functions passed to every handler, so that every theorem
    holds for every provider behaviour. *)

From Stdlib Require Import ZArith String List.
From stdpp Require Import base gmap strings list.

Open Scope string_scope.
Open Scope Z_scope.

(* ------------------------------------------------------------------ *)
(** ** JavaScript values *)

(** The values that flow into the store: [undefined], [null], numbers,
    strings, the ISO-8601 string of a date ([JIso ms] is
    [new Date(ms).toISOString()]), and a member inherited from
    [Object.prototype] (what [obj[k]] returns on an object literal that
    has no own property [k] but [Object.prototype] has one: a function,
    or [Object.prototype] itself for ["__proto__"]). *)
Inductive jsval :=
| JUndef
| JNull
| JBool (b : bool)
| JNum (z : Z)
| JStr (s : string)
| JIso (ms : Z)
| JInherited (name : string).

(** JavaScript truthiness. *)
Definition truthy (v : jsval) : bool :=
  match v with
  | JUndef | JNull => false
  | JBool b => b
  | JNum z => negb (Z.eqb z 0)
  | JStr s => negb (String.eqb s "")
  | JIso _ => true
  | JInherited _ => true
  end.

(** An optional string field ([undefined] when absent) as a value. *)
Definition of_opt (o : option string) : jsval :=
  match o with Some s => JStr s | None => JUndef end.

Definition truthy_opt (o : option string) : bool := truthy (of_opt o).

(** An optional string that JavaScript treats as truthy. *)
Definition if_truthy (o : option string) : option string :=
  match o with Some s => if truthy (JStr s) then Some s else None | None => None end.

(** A nullable string field ([null] when absent) as a value. *)
Definition of_nullable (o : option string) : jsval :=
  match o with Some s => JStr s | None => JNull end.

(** [a || b] *)
Definition js_or (a b : jsval) : jsval := if truthy a then a else b.

(** The (non-enumerable) members of [Object.prototype], which every
    object literal inherits. *)
Definition object_prototype_members : list string :=
  ["constructor"; "__defineGetter__"; "__defineSetter__"; "hasOwnProperty";
   "__lookupGetter__"; "__lookupSetter__"; "isPrototypeOf";
   "propertyIsEnumerable"; "toString"; "valueOf"; "__proto__";
   "toLocaleString"].

(** [obj[k]] on an object literal with string-valued own properties
    [own]: the own property, else the inherited one, else [undefined]. *)
Definition js_get (own : list (string * string)) (k : string) : jsval :=
  match list_find (fun p => p.1 = k) own with
  | Some (_, (_, v)) => JStr v
  | None =>
      if bool_decide (k ∈ object_prototype_members) then JInherited k
      else JUndef
  end.

(** [new Date(ms).toISOString()]: a [RangeError] outside the ECMAScript
    time range of +-8.64e15 ms. *)
Definition max_time_ms : Z := 8640000000000000.

Definition toISOString (ms : Z) : string + jsval :=
  if Z.abs ms <=? max_time_ms then inr (JIso ms)
  else inl "Invalid time value".

(* ------------------------------------------------------------------ *)
(** ** Provider objects (the Stripe API objects the handlers read) *)

(** A subscription line item: [item.current_period_end] ([None] when
    null or absent) and [item.price.recurring.interval] ([None] when
    [price.recurring] is null, so reading [.interval] throws). *)
Record Item := mkItem {
  item_current_period_end : option Z;
  item_interval : option string;
}.

(** [metadata] of a session or subscription. *)
Record Metadata := mkMetadata {
  md_userId : option string;
  md_plan : option string;
}.

(** A subscription; [sub_items] is [subscription.items.data], [None] when
    [items] or [items.data] is missing. *)
Record Subscription := mkSubscription {
  sub_id : string;
  sub_status : string;
  sub_customer : string;
  sub_metadata : option Metadata;
  sub_items : option (list Item);
  sub_current_period_end : option Z;
}.

Record Customer := mkCustomer {
  cust_id : string;
  cust_email : option string;
}.

(** A checkout session. *)
Record Session := mkSession {
  cs_id : string;
  cs_subscription : option string;
  cs_customer : option string;
  cs_metadata : option Metadata;
}.

Record Invoice := mkInvoice {
  inv_subscription : option string;
}.

(** The webhook event, a tagged union on [event.type]. *)
Inductive Event :=
| EvCheckoutCompleted (s : Session)       (* checkout.session.completed *)
| EvPaymentSucceeded (i : Invoice)        (* invoice.payment_succeeded *)
| EvSubscriptionUpdated (s : Subscription)(* customer.subscription.updated *)
| EvSubscriptionDeleted (s : Subscription)(* customer.subscription.deleted *)
| EvPaymentFailed (i : Invoice)           (* invoice.payment_failed *)
| EvOther (type : string).

(* ------------------------------------------------------------------ *)
(** ** Period-end derivation (the inline IIFE of four branches) *)

(** [.filter(Boolean)] on the mapped [current_period_end]s. *)
Definition present_ends (items : list Item) : list Z :=
  omap (fun it => match item_current_period_end it with
                  | Some z => if truthy (JNum z) then Some z else None
                  | None => None
                  end) items.

(** [Math.min(...ends)] on a non-empty array of numbers. *)
Definition js_min (z : Z) (zs : list Z) : Z := fold_left Z.min zs z.

(** [let periodEnd = null; if (items && items.data && items.data.length > 0)
    { const ends = ...; if (ends.length > 0) periodEnd = Math.min(...ends); }] *)
Definition periodEnd (items : option (list Item)) : option Z :=
  match items with
  | Some ((_ :: _) as data) =>
      match present_ends data with
      | z :: zs => Some (js_min z zs)
      | [] => None
      end
  | _ => None
  end.

(** [periodEnd ? new Date(periodEnd * 1000).toISOString() : null] *)
Definition subscriptionEndDate (pe : option Z) : string + jsval :=
  match pe with
  | Some p => if truthy (JNum p) then toISOString (p * 1000) else inr JNull
  | None => inr JNull
  end.

Definition deriveEndDate (items : option (list Item)) : string + jsval :=
  subscriptionEndDate (periodEnd items).

(* ------------------------------------------------------------------ *)
(** ** The world: the Firestore collection [families] and an effect trace *)

(** A document field: a map (such as [subscriptionData]) or a scalar. *)
Inductive DocField :=
| FMap (m : gmap string jsval)
| FValue (v : jsval).

Abbreviation Doc := (gmap string DocField).

(** Observable effects: a call to the payment provider (API name and
    its key argument) and a committed Firestore write of a
    [subscriptionData] value to the document of a user. *)
Inductive Effect :=
| ECall (api : string) (arg : string)
| EWrite (userId : string) (subscriptionData : gmap string jsval).

Record World := mkWorld {
  families : gmap string Doc;
  trace : list Effect;
}.

(** Async handler bodies: state passing with JavaScript exceptions
    (carrying their [message]); a throw keeps the effects done so far. *)
Definition M (A : Type) : Type := World -> World * (string + A).

Definition ret {A} (a : A) : M A := fun w => (w, inr a).
Definition throw {A} (e : string) : M A := fun w => (w, inl e).
Definition bind {A B} (m : M A) (k : A -> M B) : M B :=
  fun w => match m w with
           | (w', inr a) => k a w'
           | (w', inl e) => (w', inl e)
           end.
(** [try { m } catch (e) { h(e) }] *)
Definition catch {A} (m : M A) (h : string -> M A) : M A :=
  fun w => match m w with
           | (w', inl e) => h e w'
           | r => r
           end.
(** A synchronous computation that may throw. *)
Definition lift {A} (r : string + A) : M A := fun w => (w, r).

Notation "x <- m ;; k" := (bind m (fun x => k))
  (at level 100, m at next level, k at level 200, right associativity).

(** [await stripe.<api>(arg)]: the call is observable whatever its result. *)
Definition call {A} (api arg : string) (r : string + A) : M A :=
  fun w => (mkWorld (families w) (trace w ++ [ECall api arg]), r).

(** Values Firestore accepts: not [undefined], not a function;
    [Object.prototype] (["__proto__"]) is a plain object and is stored
    as an empty map. *)
Definition storable (v : jsval) : bool :=
  match v with
  | JUndef => false
  | JInherited n => String.eqb n "__proto__"
  | _ => true
  end.

(** [db.collection('families').doc(docId).update({[field]: m}, { merge: true })].
    Firestore's [update] replaces the value of each top-level field path
    it is given (a map value replaces the whole map: nested fields are
    only merged through dotted field paths) and rejects unsupported
    values.  Its second argument is read as the write precondition:
    [{ merge: true }] has no [exists] or [lastUpdateTime] field, so it
    replaces the default precondition [{exists: true}] by none, and the
    write also succeeds on a missing document, creating it with the
    given field alone. *)
Definition firestore_update (docId field : string) (m : gmap string jsval) : M unit :=
  fun w =>
    if negb (forallb (fun kv => storable kv.2) (map_to_list m)) then
      (w, inl "Cannot use value as a Firestore value")
    else
      (mkWorld (<[docId := <[field := FMap m]> (default ∅ (families w !! docId))]>
                  (families w))
               (trace w ++ [EWrite docId m]), inr tt).

(** [async function updateUserSubscription(userId, subscriptionData)] *)
Definition updateUserSubscription (userId : jsval) (subscriptionData : gmap string jsval)
  : M unit :=
  if negb (truthy userId) then ret tt
  else catch (match userId with
              | JStr u => firestore_update u "subscriptionData" subscriptionData
              | _ => throw "Path must be a non-empty string"
              end)
             (fun _ => ret tt).

(* ------------------------------------------------------------------ *)
(** ** The payment provider and the HTTP responses *)

(** The [stripe] client, as functions of their arguments. *)
Record Stripe := mkStripe {
  customers_list : option string -> string + list Customer;  (* {email, limit: 1} *)
  subscriptions_list : string -> string -> string + list Subscription;
                                                 (* {customer, status, limit: 1} *)
  subscriptions_retrieve : string -> string + Subscription;
  subscriptions_cancel : string -> string + Subscription;
  customers_retrieve : string -> string + Customer;
  webhooks_constructEvent : string -> option string -> string -> string + Event;
                                                 (* raw body, signature, secret *)
}.

(** The subscription summary of restore-subscription. *)
Record Summary := mkSummary {
  sum_id : string;
  sum_status : string;
  sum_customer : string;
  sum_plan : string;
  sum_current_period_end : jsval;
}.

Inductive Body :=
| BError (msg : string)
| BErrorDetails (msg details : string)   (* {error, details: error.message} *)
| BText (s : string)
| BVerify (hasValidPayment : bool)
| BRestore (subscription : option Summary)
| BReceived
| BCancel (canceled : Subscription).

Record Response := mkResponse {
  status_code : Z;
  body : Body;
}.

Definition ok200 (b : Body) : Response := mkResponse 200 b.

(* ------------------------------------------------------------------ *)
(** ** Routes *)

Section Routes.

Variable stripe : Stripe.

(** [subscription.current_period_end < now]; [undefined < now] is false. *)
Definition js_lt (a : option Z) (b : Z) : bool :=
  match a with Some x => x <? b | None => false end.

(** POST /verify-payment; [now_ms] is [Date.now()]. *)
Definition verifyPayment (now_ms : Z) (email : option string) : M Response :=
  catch
    (match if_truthy email with
     | None => ret (mkResponse 400 (BError "Email is required"))
     | Some e =>
         customers <- call "customers.list" e (customers_list stripe email) ;;
         match customers with
         | [] => ret (ok200 (BVerify false))
         | customer :: _ =>
             subscriptions <- call "subscriptions.list" (cust_id customer)
                                (subscriptions_list stripe (cust_id customer) "active") ;;
             match subscriptions with
             | [] => ret (ok200 (BVerify false))
             | subscription :: _ =>
                 let now := now_ms / 1000 in
                 if js_lt (sub_current_period_end subscription) now
                 then ret (ok200 (BVerify false))
                 else ret (ok200 (BVerify true))
             end
         end
     end)
    (fun e => ret (mkResponse 500 (BErrorDetails "Failed to verify payment" e))).

(** [subscription.items.data[0].price.recurring.interval] *)
Definition first_interval (items : option (list Item)) : string + string :=
  match items with
  | Some (it :: _) =>
      match item_interval it with
      | Some i => inr i
      | None => inl "Cannot read properties of null (reading 'interval')"
      end
  | Some [] => inl "Cannot read properties of undefined (reading 'price')"
  | None => inl "Cannot read properties of undefined (reading 'data')"
  end.

(** POST /restore-subscription, body [{userId, email}]. *)
Definition restoreSubscription (userId email : option string) : M Response :=
  catch
    (customers <- call "customers.list" (default "" email) (customers_list stripe email) ;;
     match customers with
     | [] => ret (ok200 (BRestore None))
     | customer :: _ =>
         subscriptions <- call "subscriptions.list" (cust_id customer)
                            (subscriptions_list stripe (cust_id customer) "active") ;;
         match subscriptions with
         | [] => ret (ok200 (BRestore None))
         | subscription :: _ =>
             plan <- lift (first_interval (sub_items subscription)) ;;
             subscriptionEndDate <- lift (deriveEndDate (sub_items subscription)) ;;
             ret (ok200 (BRestore (Some
               (mkSummary (sub_id subscription) (sub_status subscription)
                  (cust_id customer)
                  (if String.eqb plan "year" then "yearly" else "monthly")
                  subscriptionEndDate))))
         end
     end)
    (fun e => ret (mkResponse 500 (BErrorDetails "Failed to check subscription" e))).

(** The [subscriptionData] objects the handlers pass to
    [updateUserSubscription]. *)
Definition checkoutDelta (session : Session) (md : Metadata) (sid : string)
    (endDate : jsval) : gmap string jsval :=
  list_to_map [("status", JStr "active"); ("plan", of_opt (md_plan md));
               ("customerId", of_nullable (cs_customer session));
               ("subscriptionId", JStr sid);
               ("subscriptionEndDate", endDate)].

(** [const statusMap = {...}] *)
Definition statusMap : list (string * string) :=
  [("active", "active"); ("past_due", "expired");
   ("canceled", "cancelled"); ("unpaid", "expired")].

Definition updatedDelta (updatedSub : Subscription) (endDate : jsval)
  : gmap string jsval :=
  list_to_map [("status", js_or (js_get statusMap (sub_status updatedSub))
                                (JStr "expired"));
               ("subscriptionEndDate", endDate)].

Definition deletedDelta : gmap string jsval :=
  list_to_map [("status", JStr "cancelled"); ("subscriptionEndDate", JNull)].

Definition failedDelta (endDate : jsval) : gmap string jsval :=
  list_to_map [("status", JStr "expired"); ("subscriptionEndDate", endDate)].

Definition cancelDelta : gmap string jsval :=
  list_to_map [("status", JStr "cancelled"); ("subscriptionEndDate", JNull)].

(** [metadata && metadata.userId]: the truthy userId, if any. *)
Definition meta_userId (md : option Metadata) : option string :=
  match md with Some m => if_truthy (md_userId m) | None => None end.

(** The [switch (event.type)] of the webhook. *)
Definition handleEvent (event : Event) : M unit :=
  match event with
  | EvCheckoutCompleted session =>
      match if_truthy (cs_subscription session), cs_metadata session with
      | Some sid, Some md =>
          if bool_decide (md_userId md = Some "pending") then ret tt
          else
            subscription <- call "subscriptions.retrieve" sid
                              (subscriptions_retrieve stripe sid) ;;
            endDate <- lift (deriveEndDate (sub_items subscription)) ;;
            updateUserSubscription (of_opt (md_userId md))
              (checkoutDelta session md sid endDate)
      | _, _ => ret tt
      end
  | EvPaymentSucceeded invoice =>
      match if_truthy (inv_subscription invoice) with
      | Some sid =>
          subscription <- call "subscriptions.retrieve" sid
                            (subscriptions_retrieve stripe sid) ;;
          _ <- call "customers.retrieve" (sub_customer subscription)
                 (customers_retrieve stripe (sub_customer subscription)) ;;
          ret tt
      | None => ret tt
      end
  | EvSubscriptionUpdated updatedSub =>
      match meta_userId (sub_metadata updatedSub) with
      | Some uid =>
          if String.eqb uid "pending" then ret tt
          else
            endDate <- lift (deriveEndDate (sub_items updatedSub)) ;;
            updateUserSubscription (JStr uid) (updatedDelta updatedSub endDate)
      | None => ret tt
      end
  | EvSubscriptionDeleted canceledSub =>
      match meta_userId (sub_metadata canceledSub) with
      | Some uid => updateUserSubscription (JStr uid) deletedDelta
      | None => ret tt
      end
  | EvPaymentFailed failedInvoice =>
      match if_truthy (inv_subscription failedInvoice) with
      | Some sid =>
          subscription <- call "subscriptions.retrieve" sid
                            (subscriptions_retrieve stripe sid) ;;
          match meta_userId (sub_metadata subscription) with
          | Some uid =>
              endDate <- lift (deriveEndDate (sub_items subscription)) ;;
              updateUserSubscription (JStr uid) (failedDelta endDate)
          | None => ret tt
          end
      | None => ret tt
      end
  | EvOther _ => ret tt
  end.

(** POST /webhook with the raw body, the [stripe-signature] header and
    [STRIPE_WEBHOOK_SECRET]. *)
Definition webhook (secret raw : string) (sig : option string) : M Response :=
  match webhooks_constructEvent stripe raw sig secret with
  | inl err => ret (mkResponse 400 (BText ("Webhook Error: " ++ err)))
  | inr event =>
      catch (_ <- handleEvent event ;; ret (ok200 BReceived))
            (fun _ => ret (mkResponse 500 (BError "Webhook processing failed")))
  end.

(** POST /cancel-subscription, body [{userId, subscriptionId}]. *)
Definition cancelSubscription (userId subscriptionId : option string) : M Response :=
  catch
    (match if_truthy userId, if_truthy subscriptionId with
     | Some uid, Some sid =>
         canceled <- call "subscriptions.cancel" sid (subscriptions_cancel stripe sid) ;;
         _ <- updateUserSubscription (JStr uid) cancelDelta ;;
         ret (ok200 (BCancel canceled))
     | _, _ => ret (mkResponse 400 (BError "Missing userId or subscriptionId"))
     end)
    (fun e => ret (mkResponse 500 (BErrorDetails "Failed to cancel subscription" e))).

End Routes.

(* ------------------------------------------------------------------ *)
(** ** Reference readings of the specification *)

(** The period ends of the items that have one ("drop missing values"). *)
Definition present_epochs (data : list Item) : list Z :=
  omap item_current_period_end data.


(** The [subscriptionData] map stored in document [uid], if any. *)
Definition stored_subscriptionData (w : World) (uid : string)
  : option (gmap string jsval) :=
  match families w !! uid with
  | Some doc =>
      match doc !! "subscriptionData" with Some (FMap m) => Some m | _ => None end
  | None => None
  end.

(* ------------------------------------------------------------------ *)
(** ** Concrete inputs *)

(** A family document with a full [subscriptionData] map. *)
Definition sample_subscriptionData : gmap string jsval :=
  list_to_map [("status", JStr "active"); ("plan", JStr "monthly");
               ("customerId", JStr "cus_1"); ("subscriptionId", JStr "sub_1");
               ("subscriptionEndDate", JIso 1767225600000)].

Definition sample_world : World :=
  mkWorld {[ "u1" := {[ "subscriptionData" := FMap sample_subscriptionData;
                        "familyName" := FValue (JStr "Hens") ]} ]} [].

(** A subscription of user [u1] with provider status [st], one monthly
    item ending at 2026-01-01T00:00:00Z. *)
Definition sample_subscription (st : string) : Subscription :=
  mkSubscription "sub_1" st "cus_1" (Some (mkMetadata (Some "u1") None))
    (Some [mkItem (Some 1767225600) (Some "month")]) None.

(** A provider whose signature check yields [ev] (or fails when [ev] is
    [None]) and whose cancellation succeeds iff [cancel_ok]. *)
Definition sample_stripe (ev : option Event) (cancel_ok : bool) : Stripe :=
  mkStripe (fun _ => inr [mkCustomer "cus_1" (Some "a@example.com")])
           (fun _ _ => inr [sample_subscription "active"])
           (fun _ => inr (sample_subscription "active"))
           (fun _ => if cancel_ok then inr (sample_subscription "canceled")
                     else inl "No such subscription")
           (fun _ => inr (mkCustomer "cus_1" (Some "a@example.com")))
           (fun _ _ _ => match ev with
                         | Some e => inr e
                         | None => inl "No signatures found matching the expected signature"
                         end).

(* ------------------------------------------------------------------ *)
(** ** POST /create-checkout-session *)

(** The request body [{plan, userId, email, familyName, isNewSignup}] and
    the [Origin] header. *)
Record CheckoutRequest := mkCheckoutRequest {
  ck_plan : option string;
  ck_userId : option string;
  ck_email : option string;
  ck_familyName : option string;
  ck_isNewSignup : jsval;
  ck_origin : option string;
}.

(** The environment variables read by the route. *)
Record Env := mkEnv {
  STRIPE_MONTHLY_PRICE_ID : option string;
  STRIPE_YEARLY_PRICE_ID : option string;
}.

(** [process.env.X || 'default'] *)
Definition env_or (v : option string) (d : string) : string :=
  match if_truthy v with Some s => s | None => d end.

(** [const prices = { monthly: ..., yearly: ... }] *)
Definition prices (env : Env) : list (string * string) :=
  [("monthly", env_or (STRIPE_MONTHLY_PRICE_ID env) "price_YOUR_MONTHLY_PRICE_ID");
   ("yearly", env_or (STRIPE_YEARLY_PRICE_ID env) "price_YOUR_YEARLY_PRICE_ID")].

(** [`${x}`] and the property key [obj[x]] of an optional string:
    [undefined] becomes ["undefined"]. *)
Definition js_string (o : option string) : string := default "undefined" o.

(** The [sessionConfig] object passed to [stripe.checkout.sessions.create]. *)
Record SessionConfig := mkSessionConfig {
  sc_payment_method_types : list string;
  sc_price : jsval;
  sc_quantity : Z;
  sc_mode : string;
  sc_success_url : string;
  sc_cancel_url : string;
  sc_customer_email : option string;
  sc_md_userId : string;
  sc_md_familyName : option string;
  sc_md_plan : option string;
  sc_md_isNewSignup : string;
}.

Definition sessionConfig (env : Env) (r : CheckoutRequest) : SessionConfig :=
  mkSessionConfig ["card"]
    (js_get (prices env) (js_string (ck_plan r))) 1 "subscription"
    (js_string (ck_origin r) ++ "?success=true" ++
       (if truthy (ck_isNewSignup r) then "&signup=true" else ""))
    (js_string (ck_origin r) ++ "?canceled=true")
    (ck_email r)
    (match if_truthy (ck_userId r) with Some u => u | None => "pending" end)
    (ck_familyName r) (ck_plan r)
    (if truthy (ck_isNewSignup r) then "true" else "false").

Inductive CheckoutBody :=
| BSessionId (id : string)
| BCheckoutError (error details : string).

Record CheckoutResponse := mkCheckoutResponse {
  ck_status_code : Z;
  ck_body : CheckoutBody;
}.

(** POST /create-checkout-session; [create] is
    [stripe.checkout.sessions.create], giving the session id. *)
Definition createCheckoutSession (create : SessionConfig -> string + string)
    (env : Env) (r : CheckoutRequest) : M CheckoutResponse :=
  catch
    (let cfg := sessionConfig env r in
     session <- call "checkout.sessions.create" (sc_md_userId cfg) (create cfg) ;;
     ret (mkCheckoutResponse 200 (BSessionId session)))
    (fun e => ret (mkCheckoutResponse 500
                     (BCheckoutError "Failed to create checkout session" e))).

(* ------------------------------------------------------------------ *)
(** ** The router: any sequence of API requests *)

Inductive Request :=
| ReqCreateCheckout (r : CheckoutRequest)
| ReqVerifyPayment (now_ms : Z) (email : option string)
| ReqRestore (userId email : option string)
| ReqWebhook (raw : string) (sig : option string)
| ReqCancel (userId subscriptionId : option string).

(** The server configuration: environment, webhook secret and the
    checkout-session creation call of the provider. *)
Record Config := mkConfig {
  cfg_env : Env;
  cfg_secret : string;
  cfg_create : SessionConfig -> string + string;
}.

(** The world after one request, with the provider's behaviour at that
    time. *)
Definition serve (stripe : Stripe) (cfg : Config) (req : Request) (w : World) : World :=
  match req with
  | ReqCreateCheckout r => fst (createCheckoutSession (cfg_create cfg) (cfg_env cfg) r w)
  | ReqVerifyPayment now_ms email => fst (verifyPayment stripe now_ms email w)
  | ReqRestore userId email => fst (restoreSubscription stripe userId email w)
  | ReqWebhook raw sig => fst (webhook stripe (cfg_secret cfg) raw sig w)
  | ReqCancel userId sid => fst (cancelSubscription stripe userId sid w)
  end.

Fixpoint serve_all (cfg : Config) (reqs : list (Stripe * Request)) (w : World) : World :=
  match reqs with
  | [] => w
  | (stripe, req) :: rest => serve_all cfg rest (serve stripe cfg req w)
  end.

(* ------------------------------------------------------------------ *)
(** ** GET / of [index.js]: health checks *)

Fixpoint is_prefix (p s : string) : bool :=
  match p, s with
  | EmptyString, _ => true
  | String a p', String b s' => Ascii.eqb a b && is_prefix p' s'
  | String _ _, EmptyString => false
  end.

(** [s.includes(sub)] *)
Fixpoint includes (s sub : string) : bool :=
  is_prefix sub s || match s with EmptyString => false | String _ s' => includes s' sub end.

Inductive HomeReply :=
| SendOK                     (* res.status(200).send('OK') *)
| SendFile (path : string).  (* res.sendFile(path.join(__dirname, path)) *)

(** [app.get('/')] with the [User-Agent] and [X-Health-Check] headers. *)
Definition home (userAgent xHealthCheck : option string) : HomeReply :=
  let ua := match if_truthy userAgent with Some u => u | None => "" end in
  if includes ua "GoogleHC" || includes ua "health" || truthy_opt xHealthCheck
  then SendOK else SendFile "app.html".

(* ------------------------------------------------------------------ *)
(** ** Store invariants *)

(** A [subscriptionData] map whose status is one the routes produce and
    whose end date is null or an ISO-8601 date. *)
Definition write_ok (m : gmap string jsval) : Prop :=
  m !! "status" ∈ [Some (JStr "active"); Some (JStr "expired");
                   Some (JStr "cancelled"); Some (JInherited "__proto__")] /\
  (m !! "subscriptionEndDate" = Some JNull \/
   exists ms, m !! "subscriptionEndDate" = Some (JIso ms)).

(** From [w] to [w'], every family document is either unchanged or has
    had its [subscriptionData] field alone set to a [write_ok] map (a
    missing document being created with that field only). *)
Definition store_step (w w' : World) : Prop :=
  forall uid, families w' !! uid = families w !! uid \/
    exists m, write_ok m /\
      families w' !! uid =
        Some (<["subscriptionData" := FMap m]> (default ∅ (families w !! uid))).

(** The effect of a successful [updateUserSubscription(u, m)] on the
    collection: replace [subscriptionData] of the document of [u],
    creating the document when it is missing. *)
Definition put_subscriptionData (fam : gmap string Doc) (u : string)
    (m : gmap string jsval) : gmap string Doc :=
  <[u := <["subscriptionData" := FMap m]> (default ∅ (fam !! u))]> fam.

Definition Keeps {A} (c : M A) : Prop := forall w, store_step w (fst (c w)).

Definition ReadOnly {A} (c : M A) : Prop := forall w, families (fst (c w)) = families w.

(** A server configuration with default prices whose checkout-session
    creation succeeds. *)
Definition sample_config : Config :=
  mkConfig (mkEnv None None) "whsec_test" (fun _ => inr "cs_test_1").

(* ------------------------------------------------------------------ *)
(** ** Lemmas on the period-end derivation *)

Lemma js_min_le (zs : list Z) : forall z,
  js_min z zs <= z /\ (forall e, e ∈ zs -> js_min z zs <= e).
Proof.
  unfold js_min. induction zs as [|x zs IH]; intros z; simpl.
  - split; [lia|]. intros e He. by apply elem_of_nil in He.
  - destruct (IH (Z.min z x)) as [H1 H2]. split; [lia|].
    intros e He. apply elem_of_cons in He as [->|He]; [lia|auto].
Qed.

Lemma js_min_in (zs : list Z) : forall z, js_min z zs ∈ z :: zs.
Proof.
  unfold js_min. induction zs as [|x zs IH]; intros z; simpl.
  - by apply list_elem_of_singleton.
  - specialize (IH (Z.min z x)).
    apply elem_of_cons in IH as [Hm|Hm].
    + destruct (Z.min_spec z x) as [[_ E]|[_ E]]; rewrite Hm, E;
        [apply elem_of_cons; by left|apply elem_of_cons; right; apply elem_of_cons; by left].
    + apply elem_of_cons; right; apply elem_of_cons; by right.
Qed.

Lemma omap_cons_eq {A B} (f : A -> option B) (x : A) (l : list A) :
  omap f (x :: l) = match f x with Some y => y :: omap f l | None => omap f l end.
Proof. reflexivity. Qed.

Lemma present_ends_no_zero (data : list Item) :
  (forall it, it ∈ data -> item_current_period_end it <> Some 0) ->
  present_ends data = present_epochs data.
Proof.
  induction data as [|it data IH]; intros H; [done|].
  unfold present_ends, present_epochs in *. rewrite !omap_cons_eq.
  rewrite IH by (intros it' Hit'; apply H; by apply elem_of_cons; right).
  destruct (item_current_period_end it) as [z|] eqn:E; [|done].
  assert (z <> 0).
  { intros ->. apply (H it); [by apply elem_of_cons; left|done]. }
  simpl. by rewrite (proj2 (Z.eqb_neq z 0) H0).
Qed.

Lemma present_ends_zero_or_missing (data : list Item) :
  (forall it, it ∈ data ->
     item_current_period_end it = None \/ item_current_period_end it = Some 0) ->
  present_ends data = [].
Proof.
  induction data as [|it data IH]; intros H; [done|].
  unfold present_ends in *. rewrite omap_cons_eq.
  rewrite IH by (intros it' Hit'; apply H; by apply elem_of_cons; right).
  destruct (H it) as [E|E]; [by apply elem_of_cons; left| |]; by rewrite E.
Qed.

(** An item whose period end is epoch 0 rewritten to one with no period end. *)
Definition zero_as_missing (it : Item) : Item :=
  match item_current_period_end it with
  | Some 0 => mkItem None (item_interval it)
  | _ => it
  end.

Lemma present_ends_zero_as_missing (data : list Item) :
  present_ends (map zero_as_missing data) = present_ends data.
Proof.
  induction data as [|it data IH]; [done|].
  cbn [map]. unfold present_ends in *. rewrite !omap_cons_eq, IH.
  unfold zero_as_missing.
  destruct (item_current_period_end it) as [[|p|p]|] eqn:E; simpl; by rewrite ?E.
Qed.

(* ------------------------------------------------------------------ *)
(** ** Period end (claims C4 and C10) *)

(** C4, the statement as given, fails: the item list [100; 0] has present
    period ends [100; 0], whose minimum is epoch 0, but the derived end
    date is the ISO-8601 form of epoch 100. *)
Lemma C4_zero_epoch_counterexample :
  let items := [mkItem (Some 100) None; mkItem (Some 0) None] in
  present_epochs items = [100; 0] /\
  deriveEndDate (Some items) = inr (JIso 100000) /\
  toISOString (0 * 1000) = inr (JIso 0).
Proof. cbv zeta. split; [|split]; reflexivity. Qed.

(** C4 (amended): for every list of line items none of which ends at
    epoch 0, the derived end date is null when no item has a period end,
    and otherwise the ISO-8601 form of the minimum of the present period
    ends; items ending at [100, 50, null] give epoch 50 and all-null
    items give null. *)
Theorem C4_period_end_is_min_of_present :
  (forall data : list Item,
     (forall it, it ∈ data -> item_current_period_end it <> Some 0) ->
     (present_epochs data = [] -> deriveEndDate (Some data) = inr JNull) /\
     (forall m, m ∈ present_epochs data ->
        (forall e, e ∈ present_epochs data -> m <= e) ->
        deriveEndDate (Some data) = toISOString (m * 1000))) /\
  deriveEndDate (Some [mkItem (Some 100) None; mkItem (Some 50) None;
                       mkItem None None]) = toISOString (50 * 1000) /\
  deriveEndDate (Some [mkItem None None; mkItem None None]) = inr JNull.
Proof.
  split; [|split; reflexivity].
  intros data Hnz.
  unfold deriveEndDate, periodEnd.
  destruct data as [|it0 rest] eqn:Ed.
  { split; [done|]. intros m Hm. by apply elem_of_nil in Hm. }
  rewrite <- Ed in *. rewrite (present_ends_no_zero data Hnz).
  split.
  - intros ->. done.
  - intros m Hm Hmin.
    destruct (present_epochs data) as [|z zs] eqn:Ep;
      [by apply elem_of_nil in Hm|].
    assert (Heq : js_min z zs = m).
    { destruct (js_min_le zs z) as [H1 H2].
      pose proof (js_min_in zs z) as Hin.
      apply elem_of_cons in Hm as [->|Hm].
      - specialize (Hmin (js_min z zs) Hin). lia.
      - specialize (Hmin (js_min z zs) Hin). specialize (H2 m Hm). lia. }
    rewrite Heq.
    assert (Hm0 : m <> 0).
    { rewrite <- Ep in Hm. unfold present_epochs in Hm.
      apply list_elem_of_omap in Hm as (it & Hit & E).
      intros ->. by apply (Hnz it). }
    simpl. by rewrite (proj2 (Z.eqb_neq m 0) Hm0).
Qed.

Lemma C4_period_end_is_min_of_present_witness :
  (forall it, it ∈ [mkItem (Some 100) None; mkItem (Some 50) None; mkItem None None] ->
     item_current_period_end it <> Some 0) /\
  deriveEndDate (Some [mkItem (Some 100) None; mkItem (Some 50) None;
                       mkItem None None]) = toISOString (50 * 1000).
Proof.
  assert (Hnz : forall it, it ∈ [mkItem (Some 100) None; mkItem (Some 50) None;
                                 mkItem None None] ->
                item_current_period_end it <> Some 0).
  { intros it Hit. repeat (apply elem_of_cons in Hit as [->|Hit]; [discriminate|]).
    by apply elem_of_nil in Hit. }
  split; [exact Hnz|].
  apply (proj2 (proj1 C4_period_end_is_min_of_present _ Hnz)).
  - vm_compute. right. left.
  - intros e He. vm_compute in He.
    repeat (apply elem_of_cons in He as [->|He]; [lia|]). by apply elem_of_nil in He.
Defined.

(** C10: in the shared derivation every branch uses, an item whose period
    end is epoch 0 counts as an item without a period end; so a
    subscription whose only item ends at epoch 0 derives null, not the
    ISO-8601 form of epoch 0. *)
Theorem C10_zero_epoch_is_missing :
  (forall data : list Item,
     deriveEndDate (Some (map zero_as_missing data)) = deriveEndDate (Some data)) /\
  (forall interval,
     deriveEndDate (Some [mkItem (Some 0) interval]) = inr JNull /\
     toISOString (0 * 1000) = inr (JIso 0)).
Proof.
  split; [|intros i; split; reflexivity].
  intros data. unfold deriveEndDate, periodEnd.
  rewrite present_ends_zero_as_missing.
  by destruct data.
Qed.

(* ------------------------------------------------------------------ *)
(** ** Lemmas on the handlers *)

Lemma if_truthy_Some (o : option string) (u : string) :
  if_truthy o = Some u -> o = Some u /\ u <> "".
Proof.
  destruct o as [s|]; simpl; [|discriminate].
  destruct (String.eqb s "") eqn:E; simpl; [discriminate|].
  intros [= <-]. split; [done|]. by apply String.eqb_neq.
Qed.

Lemma if_truthy_nonempty (u : string) : u <> "" -> if_truthy (Some u) = Some u.
Proof. intros H. simpl. by rewrite (proj2 (String.eqb_neq u "") H). Qed.

Lemma deriveEndDate_storable (items : option (list Item)) (v : jsval) :
  deriveEndDate items = inr v -> storable v = true.
Proof.
  unfold deriveEndDate, subscriptionEndDate, toISOString.
  destruct (periodEnd items) as [p|]; [|by intros [= <-]].
  destruct (truthy (JNum p)); [|by intros [= <-]].
  destruct (Z.abs (p * 1000) <=? max_time_ms); by intros [= <-].
Qed.

(** [updateUserSubscription] with a non-empty user id and storable data
    sets [subscriptionData] of the user's document, creating the document
    when it is missing. *)
Lemma updateUserSubscription_spec (uid : string) (m : gmap string jsval) (w : World) :
  uid <> "" ->
  forallb (fun kv => storable kv.2) (map_to_list m) = true ->
  updateUserSubscription (JStr uid) m w =
    (mkWorld (put_subscriptionData (families w) uid m) (trace w ++ [EWrite uid m]), inr tt).
Proof.
  intros Hu Hs. unfold updateUserSubscription, catch, firestore_update.
  simpl. rewrite (proj2 (String.eqb_neq uid "") Hu), Hs. reflexivity.
Qed.

Lemma deletedDelta_storable :
  forallb (fun kv => storable kv.2) (map_to_list deletedDelta) = true.
Proof. reflexivity. Qed.

Lemma cancelDelta_storable :
  forallb (fun kv => storable kv.2) (map_to_list cancelDelta) = true.
Proof. reflexivity. Qed.



(** One [customer.subscription.deleted] event. *)
Lemma handleEvent_deleted (stripe : Stripe) (canceledSub : Subscription) (w : World) :
  handleEvent stripe (EvSubscriptionDeleted canceledSub) w =
    (match meta_userId (sub_metadata canceledSub) with
     | Some uid => mkWorld (put_subscriptionData (families w) uid deletedDelta)
                           (trace w ++ [EWrite uid deletedDelta])
     | None => w
     end, inr tt).
Proof.
  simpl. destruct (meta_userId (sub_metadata canceledSub)) as [uid|] eqn:E; [|done].
  assert (Hu : uid <> "").
  { destruct (sub_metadata canceledSub) as [md|]; [|discriminate].
    by apply (if_truthy_Some (md_userId md)). }
  by rewrite (updateUserSubscription_spec uid deletedDelta w Hu deletedDelta_storable).
Qed.

(* ------------------------------------------------------------------ *)
(** ** The cancelled-status invariant (claim C1) *)

(** C1: a [customer.subscription.updated] event with provider status
    [canceled] for user [u1], whose item ends at 2026-01-01, is
    acknowledged and writes status [cancelled] together with a non-null
    [subscriptionEndDate] (the ISO-8601 form of that period end). *)
Theorem C1_updated_canceled_writes_end_date :
  let r := webhook (sample_stripe (Some (EvSubscriptionUpdated
                      (sample_subscription "canceled"))) true)
                   "whsec_test" "{}" (Some "t=1,v1=sig") sample_world in
  snd r = inr (ok200 BReceived) /\
  trace (fst r) = [EWrite "u1" (updatedDelta (sample_subscription "canceled")
                                  (JIso 1767225600000))] /\
  (stored_subscriptionData (fst r) "u1" ≫= (fun m => m !! "status"))
    = Some (JStr "cancelled") /\
  (stored_subscriptionData (fst r) "u1" ≫= (fun m => m !! "subscriptionEndDate"))
    = Some (JIso 1767225600000).
Proof. vm_compute. repeat split. Qed.

(* ------------------------------------------------------------------ *)
(** ** Merge-update of [subscriptionData] (claim C2) *)

(** C2: on the stored map [{status, plan, customerId, subscriptionId,
    subscriptionEndDate}] of user [u1], a [customer.subscription.deleted]
    event leaves [subscriptionData] equal to the delta
    [{status: cancelled, subscriptionEndDate: null}]: [plan],
    [customerId] and [subscriptionId] are gone. *)
Theorem C2_deleted_replaces_subscriptionData :
  let r := webhook (sample_stripe (Some (EvSubscriptionDeleted
                      (sample_subscription "canceled"))) true)
                   "whsec_test" "{}" (Some "t=1,v1=sig") sample_world in
  (stored_subscriptionData sample_world "u1" ≫= (fun m => m !! "plan"))
    = Some (JStr "monthly") /\
  stored_subscriptionData (fst r) "u1" = Some deletedDelta /\
  (stored_subscriptionData (fst r) "u1" ≫= (fun m => m !! "plan")) = None /\
  (stored_subscriptionData (fst r) "u1" ≫= (fun m => m !! "customerId")) = None /\
  (stored_subscriptionData (fst r) "u1" ≫= (fun m => m !! "subscriptionId")) = None.
Proof. vm_compute. repeat split. Qed.

(* ------------------------------------------------------------------ *)
(** ** Status mapping of [customer.subscription.updated] (claim C3) *)



(* ------------------------------------------------------------------ *)
(** ** Webhook signature gate (claim C5) *)

(** C5: when the signature of a webhook request does not verify against
    the secret, the endpoint answers 400 and the world (store and
    provider-call trace) is exactly as before: no event is processed. *)
Theorem C5_bad_signature_rejected (stripe : Stripe) (secret raw : string)
    (sig : option string) (err : string) (w : World) :
  webhooks_constructEvent stripe raw sig secret = inl err ->
  webhook stripe secret raw sig w
    = (w, inr (mkResponse 400 (BText ("Webhook Error: " ++ err)))).
Proof. intros H. unfold webhook. by rewrite H. Qed.

Lemma C5_bad_signature_rejected_witness :
  webhooks_constructEvent (sample_stripe None true) "{}" (Some "t=1,v1=forged") "whsec_test"
    = inl "No signatures found matching the expected signature" /\
  webhook (sample_stripe None true) "whsec_test" "{}" (Some "t=1,v1=forged") sample_world
    = (sample_world, inr (mkResponse 400 (BText ("Webhook Error: " ++
         "No signatures found matching the expected signature")))).
Proof.
  split; [reflexivity|].
  apply (C5_bad_signature_rejected (sample_stripe None true) "whsec_test" "{}"
           (Some "t=1,v1=forged") _ sample_world).
  reflexivity.
Defined.

(* ------------------------------------------------------------------ *)
(** ** verify-payment (claim C6) *)

(** C6: verify-payment answers 400 without contacting the provider when
    the email is absent (or empty); otherwise, with the provider's
    answers to the customer and active-subscription lookups, it answers
    [hasValidPayment: false] when no customer matches, when the customer
    has no active subscription, and when the subscription's
    [current_period_end] is strictly before the current time in seconds,
    and [hasValidPayment: true] in every other case. *)
Theorem C6_verify_payment (stripe : Stripe) (now_ms : Z) (w : World) :
  (forall email, if_truthy email = None ->
     verifyPayment stripe now_ms email w
       = (w, inr (mkResponse 400 (BError "Email is required")))) /\
  (forall e, e <> "" ->
     customers_list stripe (Some e) = inr [] ->
     snd (verifyPayment stripe now_ms (Some e) w) = inr (ok200 (BVerify false))) /\
  (forall e c cs, e <> "" ->
     customers_list stripe (Some e) = inr (c :: cs) ->
     subscriptions_list stripe (cust_id c) "active" = inr [] ->
     snd (verifyPayment stripe now_ms (Some e) w) = inr (ok200 (BVerify false))) /\
  (forall e c cs s ss p, e <> "" ->
     customers_list stripe (Some e) = inr (c :: cs) ->
     subscriptions_list stripe (cust_id c) "active" = inr (s :: ss) ->
     sub_current_period_end s = Some p -> p < now_ms / 1000 ->
     snd (verifyPayment stripe now_ms (Some e) w) = inr (ok200 (BVerify false))) /\
  (forall e c cs s ss, e <> "" ->
     customers_list stripe (Some e) = inr (c :: cs) ->
     subscriptions_list stripe (cust_id c) "active" = inr (s :: ss) ->
     ~ (exists p, sub_current_period_end s = Some p /\ p < now_ms / 1000) ->
     snd (verifyPayment stripe now_ms (Some e) w) = inr (ok200 (BVerify true))).
Proof.
  split; [|split; [|split; [|split]]].
  - intros email H. unfold verifyPayment, catch. by rewrite H.
  - intros e He Hc. unfold verifyPayment, catch, bind, call.
    by rewrite (if_truthy_nonempty e He), Hc.
  - intros e c cs He Hc Hs. unfold verifyPayment, catch, bind, call.
    by rewrite (if_truthy_nonempty e He), Hc, Hs.
  - intros e c cs s ss p He Hc Hs Hp Hlt. unfold verifyPayment, catch, bind, call.
    rewrite (if_truthy_nonempty e He), Hc, Hs. simpl.
    unfold js_lt. rewrite Hp. by rewrite (proj2 (Z.ltb_lt p (now_ms / 1000)) Hlt).
  - intros e c cs s ss He Hc Hs Hn. unfold verifyPayment, catch, bind, call.
    rewrite (if_truthy_nonempty e He), Hc, Hs. simpl.
    unfold js_lt. destruct (sub_current_period_end s) as [p|]; [|done].
    destruct (Z.ltb_spec p (now_ms / 1000)) as [Hlt|]; [|done].
    exfalso. apply Hn. by exists p.
Qed.

Lemma C6_verify_payment_witness :
  ("a@example.com" <> "") /\
  customers_list (sample_stripe None true) (Some "a@example.com")
    = inr [mkCustomer "cus_1" (Some "a@example.com")] /\
  subscriptions_list (sample_stripe None true) "cus_1" "active"
    = inr [sample_subscription "active"] /\
  snd (verifyPayment (sample_stripe None true) 1760400000000 (Some "a@example.com")
         sample_world) = inr (ok200 (BVerify true)).
Proof.
  split; [discriminate|]. split; [reflexivity|]. split; [reflexivity|].
  apply (proj2 (proj2 (proj2 (proj2
           (C6_verify_payment (sample_stripe None true) 1760400000000 sample_world))))
           "a@example.com" (mkCustomer "cus_1" (Some "a@example.com")) []
           (sample_subscription "active") []).
  - discriminate.
  - reflexivity.
  - reflexivity.
  - intros (p & Hp & _). discriminate.
Defined.

(* ------------------------------------------------------------------ *)
(** ** cancel-subscription (claim C7) *)



(* ------------------------------------------------------------------ *)
(** ** Replaying [customer.subscription.deleted] (claim C8) *)



(* ------------------------------------------------------------------ *)
(** ** restore-subscription ignores [userId] (claim C9) *)

(** C9: two restore-subscription requests with the same email, against
    the same provider and the same world, give the same response and the
    same effects whatever their [userId]s. *)
Theorem C9_restore_independent_of_userId (stripe : Stripe)
    (userId1 userId2 email : option string) (w : World) :
  restoreSubscription stripe userId1 email w = restoreSubscription stripe userId2 email w.
Proof. reflexivity. Qed.

(* ------------------------------------------------------------------ *)
(** ** Store invariants of the routes *)

Lemma store_step_refl (w : World) : store_step w w.
Proof. intros uid. by left. Qed.

Lemma store_step_same (w w' : World) : families w' = families w -> store_step w w'.
Proof. intros E uid. left. by rewrite E. Qed.

Lemma store_step_trans (w1 w2 w3 : World) :
  store_step w1 w2 -> store_step w2 w3 -> store_step w1 w3.
Proof.
  intros H12 H23 uid.
  destruct (H12 uid) as [E12|(m & Hm & E2)];
    destruct (H23 uid) as [E23|(m' & Hm' & E3)].
  - left. congruence.
  - right. exists m'. split; [done|]. by rewrite E3, E12.
  - right. exists m. split; [done|]. congruence.
  - right. exists m'. split; [done|]. rewrite E3, E2. simpl.
    by rewrite insert_insert_eq.
Qed.

Lemma readonly_keeps {A} (c : M A) : ReadOnly c -> Keeps c.
Proof. intros H w. apply store_step_same, H. Qed.

Lemma readonly_ret {A} (a : A) : ReadOnly (ret a).
Proof. by intros w. Qed.

Lemma readonly_lift {A} (r : string + A) : ReadOnly (lift r).
Proof. by intros w. Qed.

Lemma readonly_call {A} (api arg : string) (r : string + A) : ReadOnly (call api arg r).
Proof. by intros w. Qed.

Lemma readonly_bind {A B} (m : M A) (k : A -> M B) :
  ReadOnly m -> (forall a, ReadOnly (k a)) -> ReadOnly (bind m k).
Proof.
  intros Hm Hk w. unfold bind. specialize (Hm w).
  destruct (m w) as [w1 [e|a]]; simpl in *; [done|]. by rewrite Hk.
Qed.

Lemma readonly_catch {A} (m : M A) (h : string -> M A) :
  ReadOnly m -> (forall e, ReadOnly (h e)) -> ReadOnly (catch m h).
Proof.
  intros Hm Hh w. unfold catch. specialize (Hm w).
  destruct (m w) as [w1 [e|a]]; simpl in *; [|done]. by rewrite Hh.
Qed.

Lemma keeps_bind {A B} (m : M A) (k : A -> M B) :
  Keeps m -> (forall a, Keeps (k a)) -> Keeps (bind m k).
Proof.
  intros Hm Hk w. unfold bind. specialize (Hm w).
  destruct (m w) as [w1 [e|a]]; simpl in *; [done|].
  eapply store_step_trans; [exact Hm|apply Hk].
Qed.

(** A continuation only needs the invariant on the values [r] can give. *)
Lemma keeps_bind_lift {A B} (r : string + A) (k : A -> M B) :
  (forall a, r = inr a -> Keeps (k a)) -> Keeps (bind (lift r) k).
Proof.
  intros Hk w. unfold bind, lift.
  destruct r as [e|a]; [apply store_step_refl|]. by apply Hk.
Qed.

Lemma keeps_catch {A} (m : M A) (h : string -> M A) :
  Keeps m -> (forall e, Keeps (h e)) -> Keeps (catch m h).
Proof.
  intros Hm Hh w. unfold catch. specialize (Hm w).
  destruct (m w) as [w1 [e|a]]; simpl in *; [|done].
  eapply store_step_trans; [exact Hm|apply Hh].
Qed.

Lemma forallb_storable_lookup (m : gmap string jsval) (k : string) (v : jsval) :
  forallb (fun kv => storable kv.2) (map_to_list m) = true ->
  m !! k = Some v -> storable v = true.
Proof.
  intros Hs Hk. apply forallb_forall with (x := (k, v)) in Hs; [done|].
  apply list_elem_of_In, elem_of_map_to_list, Hk.
Qed.

(** [updateUserSubscription] keeps the invariant for every map that is
    [write_ok] whenever Firestore accepts it. *)
Lemma keeps_updateUserSubscription (userId : jsval) (m : gmap string jsval) :
  (forallb (fun kv => storable kv.2) (map_to_list m) = true -> write_ok m) ->
  Keeps (updateUserSubscription userId m).
Proof.
  intros Hok w. unfold updateUserSubscription.
  destruct (negb (truthy userId)); [apply store_step_refl|].
  unfold catch. destruct userId as [| | | | u | |]; try apply store_step_refl.
  unfold firestore_update.
  destruct (forallb (fun kv => storable kv.2) (map_to_list m)) eqn:Hs;
    simpl; [|apply store_step_refl].
  intros uid. destruct (decide (uid = u)) as [->|Hne].
  - right. exists m. split; [by apply Hok|]. simpl. by rewrite lookup_insert_eq.
  - left. simpl. by rewrite lookup_insert_ne by congruence.
Qed.

Lemma deriveEndDate_cases (items : option (list Item)) (v : jsval) :
  deriveEndDate items = inr v -> v = JNull \/ exists ms, v = JIso ms.
Proof.
  unfold deriveEndDate, subscriptionEndDate, toISOString.
  destruct (periodEnd items) as [p|]; [|intros [= <-]; by left].
  destruct (truthy (JNum p)); [|intros [= <-]; by left].
  destruct (Z.abs (p * 1000) <=? max_time_ms); [|discriminate].
  intros [= <-]. right. by eexists.
Qed.

Lemma end_ok_of (v : jsval) :
  v = JNull \/ (exists ms, v = JIso ms) ->
  Some v = Some JNull \/ exists ms, Some v = Some (JIso ms).
Proof. intros [->|[ms ->]]; [by left|right; by exists ms]. Qed.

(** Membership in a concrete list, by trying each element in turn. *)
Ltac solve_in_list :=
  cbn; repeat (apply elem_of_cons; (left; reflexivity) || right).

(** The status value the [customer.subscription.updated] branch computes,
    when Firestore accepts it. *)
Lemma updated_status_cases (s : string) :
  storable (js_or (js_get statusMap s) (JStr "expired")) = true ->
  Some (js_or (js_get statusMap s) (JStr "expired"))
    ∈ [Some (JStr "active"); Some (JStr "expired");
       Some (JStr "cancelled"); Some (JInherited "__proto__")].
Proof.
  unfold js_get. simpl. repeat case_decide; simpl; subst; intros Hs;
    try (apply String.eqb_eq in Hs; subst); solve_in_list.
Qed.

Lemma write_ok_checkoutDelta (session : Session) (md : Metadata) (sid : string) (v : jsval) :
  v = JNull \/ (exists ms, v = JIso ms) -> write_ok (checkoutDelta session md sid v).
Proof.
  intros Hv. unfold write_ok, checkoutDelta. simpl. split.
  - rewrite lookup_insert_eq. solve_in_list.
  - rewrite !lookup_insert_ne by done. rewrite lookup_insert_eq. by apply end_ok_of.
Qed.

Lemma write_ok_updatedDelta (updatedSub : Subscription) (v : jsval) :
  v = JNull \/ (exists ms, v = JIso ms) ->
  forallb (fun kv => storable kv.2) (map_to_list (updatedDelta updatedSub v)) = true ->
  write_ok (updatedDelta updatedSub v).
Proof.
  intros Hv Hs. unfold write_ok. split.
  - unfold updatedDelta in *. simpl in *. rewrite lookup_insert_eq.
    apply updated_status_cases.
    eapply forallb_storable_lookup; [exact Hs|]. by rewrite lookup_insert_eq.
  - unfold updatedDelta. simpl. rewrite lookup_insert_ne by done.
    rewrite lookup_insert_eq. by apply end_ok_of.
Qed.

Lemma write_ok_failedDelta (v : jsval) :
  v = JNull \/ (exists ms, v = JIso ms) -> write_ok (failedDelta v).
Proof.
  intros Hv. unfold write_ok, failedDelta. simpl. split.
  - rewrite lookup_insert_eq. solve_in_list.
  - rewrite lookup_insert_ne by done. rewrite lookup_insert_eq. by apply end_ok_of.
Qed.

Lemma write_ok_deletedDelta : write_ok deletedDelta.
Proof. unfold write_ok. split; [solve_in_list|by left]. Qed.

Lemma write_ok_cancelDelta : write_ok cancelDelta.
Proof. unfold write_ok. split; [solve_in_list|by left]. Qed.

Ltac keeps_pure :=
  apply readonly_keeps;
  first [apply readonly_ret | apply readonly_call | apply readonly_lift].

Lemma keeps_handleEvent (stripe : Stripe) (event : Event) :
  Keeps (handleEvent stripe event).
Proof.
  destruct event as [session|invoice|updatedSub|canceledSub|failedInvoice|type]; simpl.
  - destruct (if_truthy (cs_subscription session)) as [sid|];
      destruct (cs_metadata session) as [md|]; try keeps_pure.
    destruct (bool_decide (md_userId md = Some "pending")); [keeps_pure|].
    apply keeps_bind; [keeps_pure|intros subscription].
    apply keeps_bind_lift. intros v Hv.
    apply keeps_updateUserSubscription. intros _.
    apply write_ok_checkoutDelta. by eapply deriveEndDate_cases.
  - destruct (if_truthy (inv_subscription invoice)); [|keeps_pure].
    apply keeps_bind; [keeps_pure|intros subscription].
    apply keeps_bind; [keeps_pure|intros _; keeps_pure].
  - destruct (meta_userId (sub_metadata updatedSub)) as [uid|]; [|keeps_pure].
    destruct (String.eqb uid "pending"); [keeps_pure|].
    apply keeps_bind_lift. intros v Hv.
    apply keeps_updateUserSubscription.
    apply write_ok_updatedDelta. by eapply deriveEndDate_cases.
  - destruct (meta_userId (sub_metadata canceledSub)); [|keeps_pure].
    apply keeps_updateUserSubscription. intros _. apply write_ok_deletedDelta.
  - destruct (if_truthy (inv_subscription failedInvoice)); [|keeps_pure].
    apply keeps_bind; [keeps_pure|intros subscription].
    destruct (meta_userId (sub_metadata subscription)); [|keeps_pure].
    apply keeps_bind_lift. intros v Hv.
    apply keeps_updateUserSubscription. intros _.
    apply write_ok_failedDelta. by eapply deriveEndDate_cases.
  - keeps_pure.
Qed.

Lemma keeps_webhook (stripe : Stripe) (secret raw : string) (sig : option string) :
  Keeps (webhook stripe secret raw sig).
Proof.
  unfold webhook. destruct (webhooks_constructEvent stripe raw sig secret); [keeps_pure|].
  apply keeps_catch; [|intros; keeps_pure].
  apply keeps_bind; [apply keeps_handleEvent|intros; keeps_pure].
Qed.

Lemma keeps_cancelSubscription (stripe : Stripe) (userId subscriptionId : option string) :
  Keeps (cancelSubscription stripe userId subscriptionId).
Proof.
  unfold cancelSubscription. apply keeps_catch; [|intros; keeps_pure].
  destruct (if_truthy userId), (if_truthy subscriptionId); try keeps_pure.
  apply keeps_bind; [keeps_pure|intros canceled].
  apply keeps_bind; [|intros; keeps_pure].
  apply keeps_updateUserSubscription. intros _. apply write_ok_cancelDelta.
Qed.

Lemma readonly_verifyPayment (stripe : Stripe) (now_ms : Z) (email : option string) :
  ReadOnly (verifyPayment stripe now_ms email).
Proof.
  unfold verifyPayment. apply readonly_catch; [|intros; apply readonly_ret].
  destruct (if_truthy email); [|apply readonly_ret].
  apply readonly_bind; [apply readonly_call|intros [|customer ?]; [apply readonly_ret|]].
  apply readonly_bind; [apply readonly_call|intros [|subscription ?]; [apply readonly_ret|]].
  destruct (js_lt _ _); apply readonly_ret.
Qed.

Lemma readonly_restoreSubscription (stripe : Stripe) (userId email : option string) :
  ReadOnly (restoreSubscription stripe userId email).
Proof.
  unfold restoreSubscription. apply readonly_catch; [|intros; apply readonly_ret].
  apply readonly_bind; [apply readonly_call|intros [|customer ?]; [apply readonly_ret|]].
  apply readonly_bind; [apply readonly_call|intros [|subscription ?]; [apply readonly_ret|]].
  apply readonly_bind; [apply readonly_lift|intros plan].
  apply readonly_bind; [apply readonly_lift|intros; apply readonly_ret].
Qed.

Lemma readonly_createCheckoutSession (create : SessionConfig -> string + string)
    (env : Env) (r : CheckoutRequest) :
  ReadOnly (createCheckoutSession create env r).
Proof.
  unfold createCheckoutSession. apply readonly_catch; [|intros; apply readonly_ret].
  apply readonly_bind; [apply readonly_call|intros; apply readonly_ret].
Qed.

Lemma store_step_serve (stripe : Stripe) (cfg : Config) (req : Request) (w : World) :
  store_step w (serve stripe cfg req w).
Proof.
  destruct req; simpl.
  - apply readonly_keeps, readonly_createCheckoutSession.
  - apply readonly_keeps, readonly_verifyPayment.
  - apply readonly_keeps, readonly_restoreSubscription.
  - apply keeps_webhook.
  - apply keeps_cancelSubscription.
Qed.

Lemma store_step_serve_all (cfg : Config) (reqs : list (Stripe * Request)) :
  forall w, store_step w (serve_all cfg reqs w).
Proof.
  induction reqs as [|[stripe req] rest IH]; intros w; simpl.
  - apply store_step_refl.
  - eapply store_step_trans; [apply store_step_serve|apply IH].
Qed.

(* ------------------------------------------------------------------ *)
(** ** Properties of the routes beyond the specification's claims *)

(** X1: after any sequence of API requests, with any provider behaviour,
    no family document is deleted, and every field other than
    [subscriptionData] reads as before: the fields of an existing
    document are unchanged, and a document the routes create (a write
    for a user with no document) holds [subscriptionData] alone. *)
Theorem routes_preserve_documents (cfg : Config) (reqs : list (Stripe * Request))
    (w : World) (uid : string) :
  (is_Some (families w !! uid) -> is_Some (families (serve_all cfg reqs w) !! uid)) /\
  (forall f, f <> "subscriptionData" ->
     (families (serve_all cfg reqs w) !! uid ≫= (fun doc => doc !! f)) =
     (families w !! uid ≫= (fun doc => doc !! f))).
Proof.
  destruct (store_step_serve_all cfg reqs w uid) as [E|(m & _ & E)]; rewrite E.
  - done.
  - split; [intros _; by eexists|]. intros f Hf. simpl.
    rewrite lookup_insert_ne by congruence.
    destruct (families w !! uid); simpl; [done|apply lookup_empty].
Qed.

Lemma routes_preserve_documents_witness :
  let reqs := [(sample_stripe None true, ReqCancel (Some "u2") (Some "sub_2"));
               (sample_stripe (Some (EvSubscriptionDeleted (sample_subscription "active"))) true,
                ReqWebhook "{}" (Some "t=1,v1=sig"))] in
  is_Some (families (serve_all sample_config reqs sample_world) !! "u1") /\
  (families (serve_all sample_config reqs sample_world) !! "u1"
     ≫= (fun doc => doc !! "familyName")) = Some (FValue (JStr "Hens")) /\
  (families (serve_all sample_config reqs sample_world) !! "u2"
     ≫= (fun doc => doc !! "familyName")) = None.
Proof.
  intros reqs.
  split; [apply (proj1 (routes_preserve_documents sample_config reqs sample_world "u1"));
          by eexists|].
  split.
  - rewrite (proj2 (routes_preserve_documents sample_config reqs sample_world "u1")
               "familyName" ltac:(discriminate)). reflexivity.
  - rewrite (proj2 (routes_preserve_documents sample_config reqs sample_world "u2")
               "familyName" ltac:(discriminate)). reflexivity.
Defined.

(** X2: after any sequence of API requests, the [subscriptionData] map
    of every document is either the one it had before, or a map whose
    [status] is ["active"], ["expired"], ["cancelled"] or the inherited
    [Object.prototype] (an updated event with status ["__proto__"]), and
    whose [subscriptionEndDate] is null or an ISO-8601 date. *)
Theorem routes_store_status_domain (cfg : Config) (reqs : list (Stripe * Request))
    (w : World) (uid : string) :
  stored_subscriptionData (serve_all cfg reqs w) uid = stored_subscriptionData w uid \/
  exists m, stored_subscriptionData (serve_all cfg reqs w) uid = Some m /\ write_ok m.
Proof.
  destruct (store_step_serve_all cfg reqs w uid) as [E|(m & Hm & E)].
  - left. unfold stored_subscriptionData. by rewrite E.
  - right. exists m. unfold stored_subscriptionData. rewrite E. simpl.
    rewrite lookup_insert_eq. done.
Qed.

(** X3: POST /verify-payment, POST /restore-subscription and POST
    /create-checkout-session never change the Firestore collection,
    whatever the request and whatever the provider answers. *)
Theorem read_routes_leave_store (stripe : Stripe) (create : SessionConfig -> string + string)
    (env : Env) (r : CheckoutRequest) (now_ms : Z) (userId email : option string)
    (w : World) :
  families (fst (verifyPayment stripe now_ms email w)) = families w /\
  families (fst (restoreSubscription stripe userId email w)) = families w /\
  families (fst (createCheckoutSession create env r w)) = families w.
Proof.
  split; [apply readonly_verifyPayment|].
  split; [apply readonly_restoreSubscription|apply readonly_createCheckoutSession].
Qed.

(** X4: POST /create-checkout-session makes exactly one provider call,
    keyed by the session's [metadata.userId], and answers 200 with the
    session id when the provider creates the session and 500 with the
    provider's message otherwise; it never throws and never writes. *)
Theorem createCheckoutSession_result (create : SessionConfig -> string + string)
    (env : Env) (r : CheckoutRequest) (w : World) :
  createCheckoutSession create env r w =
    (mkWorld (families w)
       (trace w ++ [ECall "checkout.sessions.create" (sc_md_userId (sessionConfig env r))]),
     inr (match create (sessionConfig env r) with
          | inr id => mkCheckoutResponse 200 (BSessionId id)
          | inl e => mkCheckoutResponse 500
                       (BCheckoutError "Failed to create checkout session" e)
          end)).
Proof.
  unfold createCheckoutSession, catch, bind, call, ret.
  by destruct (create (sessionConfig env r)).
Qed.

(** X5: the price sent to the provider is the monthly (yearly) price id
    of the environment, or its placeholder default when the variable is
    unset or empty, for plan ["monthly"] (["yearly"]); for a missing
    plan, or any other plan that is not the name of an
    [Object.prototype] member, the price is [undefined]: the route does
    not reject unknown plans itself. *)
Theorem checkout_price_lookup (env : Env) (r : CheckoutRequest) :
  (ck_plan r = Some "monthly" ->
     sc_price (sessionConfig env r) =
       JStr (match if_truthy (STRIPE_MONTHLY_PRICE_ID env) with
             | Some p => p | None => "price_YOUR_MONTHLY_PRICE_ID" end)) /\
  (ck_plan r = Some "yearly" ->
     sc_price (sessionConfig env r) =
       JStr (match if_truthy (STRIPE_YEARLY_PRICE_ID env) with
             | Some p => p | None => "price_YOUR_YEARLY_PRICE_ID" end)) /\
  (ck_plan r = None -> sc_price (sessionConfig env r) = JUndef) /\
  (forall p, ck_plan r = Some p -> p <> "monthly" -> p <> "yearly" ->
     p ∉ object_prototype_members -> sc_price (sessionConfig env r) = JUndef).
Proof.
  unfold sessionConfig, js_get, js_string. simpl.
  split; [intros ->; reflexivity|].
  split; [intros ->; reflexivity|].
  split; [intros ->; reflexivity|].
  intros p -> H1 H2 H3. simpl.
  repeat case_decide; simplify_eq/=; try congruence; done.
Qed.

Lemma checkout_price_lookup_witness :
  sc_price (sessionConfig (mkEnv (Some "price_m") None)
              (mkCheckoutRequest (Some "weekly") (Some "u1") None None JUndef None))
    = JUndef.
Proof.
  apply (proj2 (proj2 (proj2 (checkout_price_lookup (mkEnv (Some "price_m") None)
              (mkCheckoutRequest (Some "weekly") (Some "u1") None None JUndef None)))))
    with (p := "weekly");
    [reflexivity|discriminate|discriminate|].
  unfold object_prototype_members.
  repeat (rewrite elem_of_cons; intros [H|H]; [discriminate|revert H]).
  by rewrite elem_of_nil.
Defined.

(** X6: a checkout session created without a (truthy) [userId] carries
    [metadata.userId = 'pending']; when its [checkout.session.completed]
    event arrives, the webhook acknowledges it with 200 and changes
    nothing: no provider call and no write, so that payment is never
    recorded in the store by this route. *)
Theorem checkout_without_user_never_stored (stripe : Stripe) (secret raw : string)
    (sig : option string) (env : Env) (r : CheckoutRequest) (session : Session)
    (md : Metadata) (w : World) :
  if_truthy (ck_userId r) = None ->
  cs_metadata session = Some md ->
  md_userId md = Some (sc_md_userId (sessionConfig env r)) ->
  webhooks_constructEvent stripe raw sig secret = inr (EvCheckoutCompleted session) ->
  webhook stripe secret raw sig w = (w, inr (ok200 BReceived)).
Proof.
  intros Hu Hmd Hid Hev. unfold sessionConfig in Hid. rewrite Hu in Hid. simpl in Hid.
  unfold webhook. rewrite Hev. unfold catch, bind. simpl. rewrite Hmd.
  destruct (if_truthy (cs_subscription session)); [|reflexivity].
  rewrite bool_decide_eq_true_2 by exact Hid. reflexivity.
Qed.

Lemma checkout_without_user_never_stored_witness :
  webhook (sample_stripe (Some (EvCheckoutCompleted
             (mkSession "cs_1" (Some "sub_1") (Some "cus_1")
                (Some (mkMetadata (Some "pending") (Some "monthly")))))) true)
          "whsec_test" "{}" (Some "t=1,v1=sig") sample_world
    = (sample_world, inr (ok200 BReceived)).
Proof.
  apply (checkout_without_user_never_stored _ _ _ _ (mkEnv None None)
           (mkCheckoutRequest (Some "monthly") None (Some "a@example.com") None
              (JBool true) (Some "https://app.example"))
           (mkSession "cs_1" (Some "sub_1") (Some "cus_1")
              (Some (mkMetadata (Some "pending") (Some "monthly"))))
           (mkMetadata (Some "pending") (Some "monthly")));
    reflexivity.
Defined.

(** X7: a [checkout.session.completed] event whose session has no
    (truthy) [subscription] or no [metadata] is acknowledged with 200
    and changes nothing. *)
Theorem checkout_incomplete_session_ignored (stripe : Stripe) (secret raw : string)
    (sig : option string) (session : Session) (w : World) :
  if_truthy (cs_subscription session) = None \/ cs_metadata session = None ->
  webhooks_constructEvent stripe raw sig secret = inr (EvCheckoutCompleted session) ->
  webhook stripe secret raw sig w = (w, inr (ok200 BReceived)).
Proof.
  intros Hs Hev. unfold webhook. rewrite Hev. unfold catch, bind. simpl.
  destruct Hs as [H|H]; rewrite H; [reflexivity|].
  by destruct (if_truthy (cs_subscription session)).
Qed.

Lemma checkout_incomplete_session_ignored_witness :
  webhook (sample_stripe (Some (EvCheckoutCompleted
             (mkSession "cs_1" (Some "") (Some "cus_1")
                (Some (mkMetadata (Some "u1") (Some "monthly")))))) true)
          "whsec_test" "{}" (Some "t=1,v1=sig") sample_world
    = (sample_world, inr (ok200 BReceived)).
Proof.
  apply (checkout_incomplete_session_ignored _ _ _ _
           (mkSession "cs_1" (Some "") (Some "cus_1")
              (Some (mkMetadata (Some "u1") (Some "monthly")))));
    [left; reflexivity|reflexivity].
Defined.

Lemma checkoutDelta_storable_plan (session : Session) (md : Metadata) (sid : string)
    (v : jsval) (p : string) :
  md_plan md = Some p -> storable v = true ->
  forallb (fun kv => storable kv.2) (map_to_list (checkoutDelta session md sid v)) = true.
Proof.
  intros Hp Hv. apply forallb_forall. intros [k x] Hkx.
  apply list_elem_of_In, elem_of_map_to_list in Hkx. simpl.
  unfold checkoutDelta in Hkx. simpl in Hkx. rewrite Hp in Hkx.
  repeat (apply lookup_insert_Some in Hkx as [[<- <-]|[_ Hkx]]; [try done|]).
  - by destruct (cs_customer session).
  - by rewrite lookup_empty in Hkx.
Qed.

Lemma checkoutDelta_unstorable_no_plan (session : Session) (md : Metadata) (sid : string)
    (v : jsval) :
  md_plan md = None ->
  forallb (fun kv => storable kv.2) (map_to_list (checkoutDelta session md sid v)) = false.
Proof.
  intros Hp. destruct (forallb _ _) eqn:Hs; [|done].
  assert (H : storable (of_opt (md_plan md)) = true).
  { apply (forallb_storable_lookup (checkoutDelta session md sid v) "plan"); [exact Hs|].
    unfold checkoutDelta. simpl. rewrite lookup_insert_ne; [|done].
    by rewrite lookup_insert_eq. }
  by rewrite Hp in H.
Qed.

(** X8: a [checkout.session.completed] event for a real user (truthy
    [metadata.userId] other than ['pending']) whose subscription the
    provider returns, and whose document exists: when [metadata.plan] is
    set, the document gets [subscriptionData = {status: 'active', plan,
    customerId, subscriptionId, subscriptionEndDate}]; when
    [metadata.plan] is missing, Firestore rejects the [undefined] value,
    the error is swallowed by [updateUserSubscription] and nothing is
    written. The event is acknowledged with 200 in both cases. *)
Theorem checkout_completed_write (stripe : Stripe) (secret raw : string)
    (sig : option string) (session : Session) (md : Metadata) (sid uid : string)
    (sub : Subscription) (v : jsval) (doc : Doc) (w : World) :
  webhooks_constructEvent stripe raw sig secret = inr (EvCheckoutCompleted session) ->
  if_truthy (cs_subscription session) = Some sid ->
  cs_metadata session = Some md ->
  md_userId md = Some uid -> uid <> "" -> uid <> "pending" ->
  subscriptions_retrieve stripe sid = inr sub ->
  deriveEndDate (sub_items sub) = inr v ->
  families w !! uid = Some doc ->
  (forall p, md_plan md = Some p ->
     webhook stripe secret raw sig w =
       (mkWorld (<[uid := <["subscriptionData" := FMap (checkoutDelta session md sid v)]> doc]>
                   (families w))
                (trace w ++ [ECall "subscriptions.retrieve" sid;
                             EWrite uid (checkoutDelta session md sid v)]),
        inr (ok200 BReceived))) /\
  (md_plan md = None ->
     webhook stripe secret raw sig w =
       (mkWorld (families w) (trace w ++ [ECall "subscriptions.retrieve" sid]),
        inr (ok200 BReceived))).
Proof.
  intros Hev Hsid Hmd Huid Hne Hnp Hret Hv Hdoc.
  assert (Hpend : bool_decide (md_userId md = Some "pending") = false).
  { apply bool_decide_eq_false_2. rewrite Huid. congruence. }
  unfold webhook. rewrite Hev. unfold catch, bind. simpl.
  rewrite Hsid, Hmd, Hpend. unfold bind, call, lift. rewrite Hret, Hv, Huid. simpl.
  split.
  - intros p Hp.
    rewrite (updateUserSubscription_spec uid _ _ Hne
               (checkoutDelta_storable_plan session md sid v p Hp
                  (deriveEndDate_storable _ _ Hv))).
    unfold put_subscriptionData. simpl. rewrite Hdoc. simpl. by rewrite <- app_assoc.
  - intros Hp. unfold updateUserSubscription, catch, firestore_update. simpl.
    rewrite (proj2 (String.eqb_neq uid "") Hne).
    rewrite (checkoutDelta_unstorable_no_plan session md sid v Hp). reflexivity.
Qed.

Lemma checkout_completed_write_witness :
  let session := mkSession "cs_1" (Some "sub_1") (Some "cus_1")
                   (Some (mkMetadata (Some "u1") (Some "yearly"))) in
  let md := mkMetadata (Some "u1") (Some "yearly") in
  let doc : Doc := {[ "subscriptionData" := FMap sample_subscriptionData;
                      "familyName" := FValue (JStr "Hens") ]} in
  webhook (sample_stripe (Some (EvCheckoutCompleted session)) true)
          "whsec_test" "{}" (Some "t=1,v1=sig") sample_world =
    (mkWorld (<["u1" := <["subscriptionData" :=
                 FMap (checkoutDelta session md "sub_1" (JIso 1767225600000))]> doc]>
                (families sample_world))
             (trace sample_world ++ [ECall "subscriptions.retrieve" "sub_1";
                EWrite "u1" (checkoutDelta session md "sub_1" (JIso 1767225600000))]),
     inr (ok200 BReceived)).
Proof.
  intros session md doc.
  refine (proj1 (checkout_completed_write _ _ _ _ session md "sub_1" "u1"
                   (sample_subscription "active") (JIso 1767225600000) doc sample_world
                   _ _ _ _ _ _ _ _ _) "yearly" _);
    first [reflexivity | discriminate].
Defined.

(** X9: when the provider fails to retrieve the subscription of a
    [checkout.session.completed] event (real user, subscription and
    metadata set) or of an [invoice.payment_succeeded] or
    [invoice.payment_failed] event, the webhook answers 500, the failed
    call is the only effect, and the store is unchanged. *)
Theorem webhook_retrieve_failure (stripe : Stripe) (secret raw : string)
    (sig : option string) (ev : Event) (sid e : string) (w : World) :
  webhooks_constructEvent stripe raw sig secret = inr ev ->
  ((exists session md, ev = EvCheckoutCompleted session /\
      if_truthy (cs_subscription session) = Some sid /\
      cs_metadata session = Some md /\ md_userId md <> Some "pending") \/
   (exists inv, (ev = EvPaymentSucceeded inv \/ ev = EvPaymentFailed inv) /\
      if_truthy (inv_subscription inv) = Some sid)) ->
  subscriptions_retrieve stripe sid = inl e ->
  webhook stripe secret raw sig w =
    (mkWorld (families w) (trace w ++ [ECall "subscriptions.retrieve" sid]),
     inr (mkResponse 500 (BError "Webhook processing failed"))).
Proof.
  intros Hev Hcase Hret. unfold webhook. rewrite Hev. unfold catch, bind.
  destruct Hcase as [(session & md & -> & Hsid & Hmd & Hnp)|(inv & Hinv & Hsid)].
  - simpl. rewrite Hsid, Hmd, bool_decide_eq_false_2 by exact Hnp.
    unfold bind, call. rewrite Hret. reflexivity.
  - destruct Hinv as [H|H]; rewrite H; simpl; rewrite Hsid;
      unfold bind, call; rewrite Hret; reflexivity.
Qed.

Lemma webhook_retrieve_failure_witness :
  let stripe := mkStripe (fun _ => inr []) (fun _ _ => inr [])
                  (fun _ => inl "No such subscription: 'sub_9'")
                  (fun _ => inl "unused")
                  (fun _ => inr (mkCustomer "cus_1" None))
                  (fun _ _ _ => inr (EvPaymentFailed (mkInvoice (Some "sub_9")))) in
  webhook stripe "whsec_test" "{}" (Some "t=1,v1=sig") sample_world =
    (mkWorld (families sample_world)
             (trace sample_world ++ [ECall "subscriptions.retrieve" "sub_9"]),
     inr (mkResponse 500 (BError "Webhook processing failed"))).
Proof.
  intros stripe.
  apply (webhook_retrieve_failure stripe _ _ _ (EvPaymentFailed (mkInvoice (Some "sub_9")))
           "sub_9" "No such subscription: 'sub_9'"); [reflexivity| |reflexivity].
  right. exists (mkInvoice (Some "sub_9")). split; [right; reflexivity|reflexivity].
Defined.

(** X10: an [invoice.payment_succeeded] event never changes the store
    (the handler only looks up the subscription and its customer); it
    is acknowledged with 200 unless one of the two provider lookups
    fails, in which case the webhook answers 500. *)
Theorem payment_succeeded_no_write (stripe : Stripe) (secret raw : string)
    (sig : option string) (inv : Invoice) (w : World) :
  webhooks_constructEvent stripe raw sig secret = inr (EvPaymentSucceeded inv) ->
  families (fst (webhook stripe secret raw sig w)) = families w /\
  snd (webhook stripe secret raw sig w) =
    inr (match if_truthy (inv_subscription inv) with
         | None => ok200 BReceived
         | Some sid =>
             match subscriptions_retrieve stripe sid with
             | inl _ => mkResponse 500 (BError "Webhook processing failed")
             | inr sub =>
                 match customers_retrieve stripe (sub_customer sub) with
                 | inl _ => mkResponse 500 (BError "Webhook processing failed")
                 | inr _ => ok200 BReceived
                 end
             end
         end).
Proof.
  intros Hev. unfold webhook. rewrite Hev. unfold catch, bind. simpl.
  destruct (if_truthy (inv_subscription inv)) as [sid|]; [|done].
  unfold bind, call. destruct (subscriptions_retrieve stripe sid) as [e|sub]; [done|].
  by destruct (customers_retrieve stripe (sub_customer sub)).
Qed.

Lemma payment_succeeded_no_write_witness :
  families (fst (webhook (sample_stripe (Some (EvPaymentSucceeded (mkInvoice (Some "sub_1")))) true)
                   "whsec_test" "{}" (Some "t=1,v1=sig") sample_world))
    = families sample_world.
Proof.
  apply (proj1 (payment_succeeded_no_write
    (sample_stripe (Some (EvPaymentSucceeded (mkInvoice (Some "sub_1")))) true)
    "whsec_test" "{}" (Some "t=1,v1=sig") (mkInvoice (Some "sub_1")) sample_world
    eq_refl)).
Defined.





(** X12: a [customer.subscription.updated] event for a real user whose
    derived period end lies outside the ECMAScript time range (more than
    8.64e12 seconds from the epoch) makes [toISOString] throw a
    [RangeError]: the webhook answers 500 and changes nothing. *)
Theorem updated_end_out_of_range (stripe : Stripe) (secret raw : string)
    (sig : option string) (s : Subscription) (uid : string) (p : Z) (w : World) :
  webhooks_constructEvent stripe raw sig secret = inr (EvSubscriptionUpdated s) ->
  meta_userId (sub_metadata s) = Some uid -> uid <> "pending" ->
  periodEnd (sub_items s) = Some p ->
  max_time_ms < Z.abs (p * 1000) ->
  webhook stripe secret raw sig w =
    (w, inr (mkResponse 500 (BError "Webhook processing failed"))).
Proof.
  intros Hev Huid Hnp Hp Hbig. unfold webhook. rewrite Hev. unfold catch, bind. simpl.
  rewrite Huid, (proj2 (String.eqb_neq uid "pending") Hnp).
  assert (Hd : deriveEndDate (sub_items s) = inl "Invalid time value").
  { unfold deriveEndDate, subscriptionEndDate, toISOString. rewrite Hp.
    unfold max_time_ms in Hbig.
    assert (Hz : truthy (JNum p) = true).
    { simpl. destruct (Z.eqb_spec p 0); [subst; simpl in Hbig; lia|done]. }
    rewrite Hz. unfold max_time_ms.
    destruct (Z.leb_spec (Z.abs (p * 1000)) 8640000000000000); [lia|done]. }
  unfold bind, lift. rewrite Hd. reflexivity.
Qed.

Lemma updated_end_out_of_range_witness :
  let s := mkSubscription "sub_1" "active" "cus_1" (Some (mkMetadata (Some "u1") None))
             (Some [mkItem (Some 10000000000000) (Some "month")]) None in
  webhook (sample_stripe (Some (EvSubscriptionUpdated s)) true)
          "whsec_test" "{}" (Some "t=1,v1=sig") sample_world =
    (sample_world, inr (mkResponse 500 (BError "Webhook processing failed"))).
Proof.
  intros s.
  apply (updated_end_out_of_range _ _ _ _ s "u1" 10000000000000);
    [reflexivity|reflexivity|discriminate|reflexivity|].
  unfold max_time_ms. lia.
Defined.



(** X14: POST /cancel-subscription with a missing or empty [userId] or
    [subscriptionId] answers 400 with no provider call and no write; when
    the provider fails to cancel, it answers 500 with the provider's
    message after the failed call, with the store unchanged. *)
Theorem cancel_subscription_errors (stripe : Stripe) (userId subscriptionId : option string)
    (w : World) :
  (if_truthy userId = None \/ if_truthy subscriptionId = None ->
     cancelSubscription stripe userId subscriptionId w =
       (w, inr (mkResponse 400 (BError "Missing userId or subscriptionId")))) /\
  (forall uid sid e, if_truthy userId = Some uid -> if_truthy subscriptionId = Some sid ->
     subscriptions_cancel stripe sid = inl e ->
     cancelSubscription stripe userId subscriptionId w =
       (mkWorld (families w) (trace w ++ [ECall "subscriptions.cancel" sid]),
        inr (mkResponse 500 (BErrorDetails "Failed to cancel subscription" e)))).
Proof.
  unfold cancelSubscription, catch. split.
  - intros [H|H]; rewrite H; [reflexivity|]. by destruct (if_truthy userId).
  - intros uid sid e Hu Hs Hc. rewrite Hu, Hs. unfold bind, call. by rewrite Hc.
Qed.

Lemma cancel_subscription_errors_witness :
  cancelSubscription (sample_stripe None true) (Some "u1") (Some "") sample_world =
    (sample_world, inr (mkResponse 400 (BError "Missing userId or subscriptionId"))) /\
  cancelSubscription (sample_stripe None false) (Some "u1") (Some "sub_1") sample_world =
    (mkWorld (families sample_world)
             (trace sample_world ++ [ECall "subscriptions.cancel" "sub_1"]),
     inr (mkResponse 500 (BErrorDetails "Failed to cancel subscription"
                            "No such subscription"))).
Proof.
  split.
  - apply (proj1 (cancel_subscription_errors (sample_stripe None true)
                    (Some "u1") (Some "") sample_world)). right. reflexivity.
  - apply (proj2 (cancel_subscription_errors (sample_stripe None false)
                    (Some "u1") (Some "sub_1") sample_world) "u1" "sub_1"
                    "No such subscription"); reflexivity.
Defined.

Lemma put_subscriptionData_comm (fam : gmap string Doc) (u1 u2 : string)
    (m : gmap string jsval) :
  put_subscriptionData (put_subscriptionData fam u1 m) u2 m =
  put_subscriptionData (put_subscriptionData fam u2 m) u1 m.
Proof.
  destruct (decide (u1 = u2)) as [<-|Hne]; [done|].
  unfold put_subscriptionData. rewrite !lookup_insert_ne by congruence.
  apply insert_insert_ne. congruence.
Qed.

Lemma cancelSubscription_families (stripe : Stripe) (userId subscriptionId : option string)
    (w : World) :
  families (fst (cancelSubscription stripe userId subscriptionId w)) =
    match if_truthy userId, if_truthy subscriptionId with
    | Some u, Some s =>
        match subscriptions_cancel stripe s with
        | inr _ => put_subscriptionData (families w) u cancelDelta
        | inl _ => families w
        end
    | _, _ => families w
    end.
Proof.
  unfold cancelSubscription, catch.
  destruct (if_truthy userId) as [u|] eqn:Hu; [|reflexivity].
  destruct (if_truthy subscriptionId) as [s|]; [|reflexivity].
  unfold bind, call. destruct (subscriptions_cancel stripe s); [reflexivity|].
  rewrite (updateUserSubscription_spec u cancelDelta _
             (proj2 (if_truthy_Some _ _ Hu)) cancelDelta_storable).
  reflexivity.
Qed.

Lemma webhook_deleted_families (stripe : Stripe) (secret raw : string) (sig : option string)
    (canceledSub : Subscription) (w : World) :
  webhooks_constructEvent stripe raw sig secret = inr (EvSubscriptionDeleted canceledSub) ->
  families (fst (webhook stripe secret raw sig w)) =
    match meta_userId (sub_metadata canceledSub) with
    | Some u => put_subscriptionData (families w) u deletedDelta
    | None => families w
    end.
Proof.
  intros Hev. unfold webhook. rewrite Hev. unfold catch, bind.
  rewrite handleEvent_deleted.
  by destruct (meta_userId (sub_metadata canceledSub)).
Qed.

(** X15: a successful POST /cancel-subscription and a
    [customer.subscription.deleted] webhook commute on the store: both
    set [subscriptionData] of their user to the same map [{status:
    'cancelled', subscriptionEndDate: null}] (creating a missing
    document), so the collection is the same whichever arrives first. *)
Theorem cancel_and_deleted_commute (stripe : Stripe) (secret raw : string)
    (sig : option string) (canceledSub : Subscription)
    (userId subscriptionId : option string) (w : World) :
  webhooks_constructEvent stripe raw sig secret = inr (EvSubscriptionDeleted canceledSub) ->
  families (fst (webhook stripe secret raw sig
                   (fst (cancelSubscription stripe userId subscriptionId w)))) =
  families (fst (cancelSubscription stripe userId subscriptionId
                   (fst (webhook stripe secret raw sig w)))).
Proof.
  intros Hev. rewrite !(webhook_deleted_families _ _ _ _ _ _ Hev).
  rewrite !cancelSubscription_families.
  rewrite (webhook_deleted_families _ _ _ _ _ _ Hev).
  destruct (if_truthy userId) as [u|]; destruct (if_truthy subscriptionId) as [s|];
    try reflexivity.
  destruct (subscriptions_cancel stripe s); [reflexivity|].
  destruct (meta_userId (sub_metadata canceledSub)) as [u'|]; [|reflexivity].
  apply put_subscriptionData_comm.
Qed.

Lemma cancel_and_deleted_commute_witness :
  let stripe := sample_stripe (Some (EvSubscriptionDeleted (sample_subscription "canceled"))) true in
  families (fst (webhook stripe "whsec_test" "{}" (Some "t=1,v1=sig")
                   (fst (cancelSubscription stripe (Some "u1") (Some "sub_1") sample_world)))) =
  families (fst (cancelSubscription stripe (Some "u1") (Some "sub_1")
                   (fst (webhook stripe "whsec_test" "{}" (Some "t=1,v1=sig") sample_world)))).
Proof.
  intros stripe.
  apply (cancel_and_deleted_commute stripe _ _ _ (sample_subscription "canceled")).
  reflexivity.
Defined.

(** X16: POST /restore-subscription, for a customer with an active
    subscription: when the subscription has no line items
    ([items.data] missing or empty) the route answers 500 with the
    error's message; otherwise
    the reported plan is ['monthly'] for every recurring interval other
    than ['year'] (such as ['week'] or ['day']), with the derived end
    date as [current_period_end]. *)
Theorem restore_subscription_items (stripe : Stripe) (userId email : option string)
    (c : Customer) (cs : list Customer) (s : Subscription) (ss : list Subscription)
    (w : World) :
  customers_list stripe email = inr (c :: cs) ->
  subscriptions_list stripe (cust_id c) "active" = inr (s :: ss) ->
  ((sub_items s = None \/ sub_items s = Some []) ->
     exists e, snd (restoreSubscription stripe userId email w) =
       inr (mkResponse 500 (BErrorDetails "Failed to check subscription" e))) /\
  (forall it rest i v, sub_items s = Some (it :: rest) -> item_interval it = Some i ->
     i <> "year" -> deriveEndDate (sub_items s) = inr v ->
     snd (restoreSubscription stripe userId email w) =
       inr (ok200 (BRestore (Some (mkSummary (sub_id s) (sub_status s) (cust_id c)
                                     "monthly" v))))).
Proof.
  intros Hc Hs. unfold restoreSubscription, catch, bind, call, lift. rewrite Hc, Hs.
  simpl. split.
  - intros [H|H]; rewrite H; eexists; reflexivity.
  - intros it rest i v Hit Hi Hy Hv. rewrite Hv. rewrite Hit. simpl. rewrite Hi.
    rewrite (proj2 (String.eqb_neq i "year") Hy). reflexivity.
Qed.

Lemma restore_subscription_items_witness :
  let weekly := mkSubscription "sub_2" "active" "cus_1" None
                  (Some [mkItem (Some 1767225600) (Some "week")]) None in
  let stripe := mkStripe (fun _ => inr [mkCustomer "cus_1" (Some "a@example.com")])
                  (fun _ _ => inr [weekly]) (fun _ => inr weekly) (fun _ => inr weekly)
                  (fun _ => inr (mkCustomer "cus_1" None)) (fun _ _ _ => inr (EvOther "x")) in
  snd (restoreSubscription stripe None (Some "a@example.com") sample_world) =
    inr (ok200 (BRestore (Some (mkSummary "sub_2" "active" "cus_1" "monthly"
                                   (JIso 1767225600000))))).
Proof.
  intros weekly stripe.
  apply (proj2 (restore_subscription_items stripe None (Some "a@example.com")
                  (mkCustomer "cus_1" (Some "a@example.com")) [] weekly [] sample_world
                  eq_refl eq_refl)
           (mkItem (Some 1767225600) (Some "week")) [] "week");
    [reflexivity|reflexivity|discriminate|reflexivity].
Defined.

Lemma is_prefix_spec (p s : string) : is_prefix p s = true <-> exists q, s = (p ++ q)%string.
Proof.
  revert s. induction p as [|a p IH]; intros s; simpl.
  - split; [intros _; by exists s|done].
  - destruct s as [|b s]; simpl.
    + split; [discriminate|intros [q Hq]; discriminate].
    + rewrite andb_true_iff, IH. split.
      * intros [Hab [q ->]]. apply Ascii.eqb_eq in Hab as ->. by exists q.
      * intros [q Hq]. injection Hq as -> ->. split; [apply Ascii.eqb_refl|by exists q].
Qed.

Lemma includes_spec (s sub : string) :
  includes s sub = true <-> exists a b, s = (a ++ sub ++ b)%string.
Proof.
  induction s as [|c s IH]; simpl; rewrite orb_true_iff, is_prefix_spec.
  - split.
    + intros [[q Hq]|H]; [|discriminate]. exists "", q. exact Hq.
    + intros [a [b Hab]]. left. exists b. destruct a; [done|discriminate].
  - rewrite IH. split.
    + intros [[q Hq]|[a [b Hab]]].
      * exists "", q. exact Hq.
      * exists (String c a), b. by rewrite Hab.
    + intros [a [b Hab]]. destruct a as [|c' a].
      * left. by exists b.
      * right. injection Hab as -> Hab. by exists a, b.
Qed.

Lemma includes_empty (sub : string) : sub <> "" -> includes "" sub = false.
Proof. destruct sub; [done|reflexivity]. Qed.

(** X17: GET / of [index.js] answers the health check ('OK') exactly when
    the [User-Agent] header contains ['GoogleHC'] or ['health'] as a
    case-sensitive substring, or the [X-Health-Check] header is a
    non-empty string; every other request gets [app.html]. *)
Theorem home_health_check (userAgent xHealthCheck : option string) :
  home userAgent xHealthCheck = SendOK <->
  (exists u a b, if_truthy userAgent = Some u /\
     (u = (a ++ "GoogleHC" ++ b)%string \/ u = (a ++ "health" ++ b)%string)) \/
  (exists h, xHealthCheck = Some h /\ h <> "").
Proof.
  unfold home.
  assert (Hx : truthy_opt xHealthCheck = true <-> exists h, xHealthCheck = Some h /\ h <> "").
  { unfold truthy_opt. destruct xHealthCheck as [h|]; simpl.
    - rewrite negb_true_iff, String.eqb_neq. split.
      + intros H. by exists h.
      + intros [h' [[= <-] H]]. done.
    - split; [discriminate|intros [h [H _]]; discriminate]. }
  destruct (if_truthy userAgent) as [u|] eqn:Hu.
  - destruct (includes u "GoogleHC" || includes u "health" || truthy_opt xHealthCheck) eqn:E.
    + split; [intros _|done].
      apply orb_true_iff in E as [E|E]; [apply orb_true_iff in E as [E|E]|].
      * left. apply includes_spec in E as [a [b ->]]. exists (a ++ "GoogleHC" ++ b)%string, a, b.
        by split; [|left].
      * left. apply includes_spec in E as [a [b ->]]. exists (a ++ "health" ++ b)%string, a, b.
        by split; [|right].
      * right. by apply Hx.
    + split; [discriminate|]. apply orb_false_iff in E as [E E3].
      apply orb_false_iff in E as [E1 E2].
      intros [(u' & a & b & Hu' & Hab)|H].
      * injection Hu' as <-.
        destruct Hab as [Hab|Hab].
        -- assert (includes u "GoogleHC" = true) by (apply includes_spec; eauto). congruence.
        -- assert (includes u "health" = true) by (apply includes_spec; eauto). congruence.
      * apply Hx in H. congruence.
  - rewrite !includes_empty by discriminate. simpl.
    destruct (truthy_opt xHealthCheck) eqn:E.
    + split; [intros _; right; by apply Hx|done].
    + split; [discriminate|]. intros [(u' & a & b & Hu' & _)|H]; [discriminate|].
      apply Hx in H. congruence.
Qed.

Lemma home_health_check_witness :
  home (Some "Mozilla/5.0 (compatible; healthcheck)") None = SendOK /\
  home (Some "HealthChecker/1.0") None = SendFile "app.html".
Proof.
  split; [|reflexivity].
  apply (proj2 (home_health_check (Some "Mozilla/5.0 (compatible; healthcheck)") None)).
  left. exists "Mozilla/5.0 (compatible; healthcheck)", "Mozilla/5.0 (compatible; ", "check)".
  split; [reflexivity|right; reflexivity].
Defined.

(** X18: every verified [customer.subscription.deleted] event and every
    event of an unhandled type is acknowledged with 200 whatever the
    store holds; an unhandled type changes nothing. *)
Theorem webhook_acknowledges_deleted_and_other (stripe : Stripe) (secret raw : string)
    (sig : option string) (ev : Event) (w : World) :
  webhooks_constructEvent stripe raw sig secret = inr ev ->
  (exists s, ev = EvSubscriptionDeleted s) \/ (exists t, ev = EvOther t) ->
  snd (webhook stripe secret raw sig w) = inr (ok200 BReceived) /\
  (forall t, ev = EvOther t -> fst (webhook stripe secret raw sig w) = w).
Proof.
  intros Hev Hcase. unfold webhook. rewrite Hev. unfold catch, bind.
  destruct Hcase as [[s ->]|[t ->]].
  - rewrite handleEvent_deleted. split; [done|]. discriminate.
  - split; [done|]. intros _ _. reflexivity.
Qed.

Lemma webhook_acknowledges_deleted_and_other_witness :
  webhook (sample_stripe (Some (EvOther "customer.created")) true)
          "whsec_test" "{}" (Some "t=1,v1=sig") sample_world =
    (sample_world, inr (ok200 BReceived)).
Proof.
  pose proof (webhook_acknowledges_deleted_and_other
                (sample_stripe (Some (EvOther "customer.created")) true)
                "whsec_test" "{}" (Some "t=1,v1=sig") (EvOther "customer.created")
                sample_world eq_refl (or_intror (ex_intro _ "customer.created" eq_refl)))
    as [H1 H2].
  rewrite <- (H2 "customer.created" eq_refl) at 2. rewrite <- H1.
  destruct (webhook _ _ _ _ _). reflexivity.
Defined.
